(** * DexGraspVLA planner: the task protocol of [request_task]

    A shallow embedding of [planner/dexgraspvla_planner.py].  The method
    [DexGraspVLAPlanner.request_task] picks a prompt by task name, wraps it
    in a two-turn conversation, sends it to the chat-completion client and
    decodes the text that comes back, by task name again.

    The chat-completion client, [planner.utils.parse_json],
    [planner.utils.extract_list] and [json_repair.loads] are collaborators:
    the development is parametric in them. *)

From Stdlib Require Import Bool Ascii String List ZArith Lia PrimFloat.
Import ListNotations.

Local Open Scope list_scope.
Local Open Scope string_scope.

Set Warnings "-register-all,-notation-for-abbreviation".

(** ** Text *)

Module Text.

Definition blank : string := EmptyString.

(** The double quote and the line feed, which prompt texts are full of. *)
Definition dq : string := String (ascii_of_nat 34) EmptyString.
Definition nl : string := String (ascii_of_nat 10) EmptyString.

(** A triple-quoted literal, line by line. *)
Definition unlines (ls : list string) : string := String.concat nl ls.

(** [str.lower] on one character.  Strings are byte strings here, and only
    the ASCII capitals move.  The two characters outside ASCII that
    [str.lower] takes into ASCII (the Kelvin sign, to k, and the dotted
    capital I, to i) bring none of the letters of the words searched for
    below, so an occurrence of such a word is the same either way. *)
Definition lower_ascii (c : ascii) : ascii :=
  let n := nat_of_ascii c in
  if (65 <=? n)%nat && (n <=? 90)%nat then ascii_of_nat (n + 32) else c.

Fixpoint lower (s : string) : string :=
  match s with
  | EmptyString => EmptyString
  | String c rest => String (lower_ascii c) (lower rest)
  end.

(** [needle in hay] on Python strings: [needle] starts at some position. *)
Fixpoint contains (needle hay : string) : bool :=
  prefix needle hay ||
  match hay with
  | EmptyString => false
  | String _ rest => contains needle rest
  end.

End Text.
Import Text.

(** ** Python values and exceptions *)

(** What the collaborators hand back: the values of a parsed JSON text, and
    [None]. *)
Inductive PyVal : Type :=
| PNone
| PBool (b : bool)
| PInt (n : Z)
| PFloat (x : float)
| PStr (s : string)
| PList (items : list PyVal)
| PDict (entries : list (string * PyVal)).

(** [type(v) == list] and [type(v) == str]. *)
Definition is_list (v : PyVal) : bool :=
  match v with PList _ => true | _ => false end.

Definition is_str (v : PyVal) : bool :=
  match v with PStr _ => true | _ => false end.

(** An f-string before rendering: its literal pieces and the objects it
    interpolates.  [str()] of an arbitrary object is the interpreter's
    business, so a message keeps the object itself. *)
Inductive fpart : Type :=
| Lit (text : string)
| Fmt (v : PyVal).

Definition fstring : Type := list fpart.

Inductive collaborator : Type :=
| ChatCompletions
| ParseJson
| JsonRepairLoads
| ExtractList.

(** The exceptions that can leave [request_task].  The four [ValueError]s
    are raised by [request_task] itself; [KeyError] and [TypeError] come
    from a subscript, [AttributeError] from a method call on [None]; an
    exception that escapes a collaborator passes through as [Propagated]. *)
Inductive exn : Type :=
| ValueError (msg : fstring)
| KeyError (key : string)
| TypeError
| AttributeError
| Propagated (from : collaborator) (what : string).

Inductive result (A : Type) : Type :=
| Ok (a : A)
| Err (e : exn).

Arguments Ok {A} a.
Arguments Err {A} e.

(** What a call into a collaborator comes to. *)
Inductive reply (A : Type) : Type :=
| Returned (a : A)
| Failed (what : string).

Arguments Returned {A} a.
Arguments Failed {A} what.

Definition from (who : collaborator) {A : Type} (r : reply A) : result A :=
  match r with
  | Returned a => Ok a
  | Failed what => Err (Propagated who what)
  end.

Definition rbind {A B : Type} (r : result A) (k : A -> result B) : result B :=
  match r with
  | Ok a => k a
  | Err e => Err e
  end.

Notation "x <-- r ;; k" := (rbind r (fun x => k))
  (at level 61, r at next level, right associativity).

(** [d[key]] on a dict built from JSON (keys are pairwise distinct). *)
Fixpoint lookup (key : string) (entries : list (string * PyVal)) : option PyVal :=
  match entries with
  | [] => None
  | (k, v) :: rest => if String.eqb k key then Some v else lookup key rest
  end.

(** [v[key]] with a string key: only a dict takes one. *)
Definition getitem (v : PyVal) (key : string) : result PyVal :=
  match v with
  | PDict entries =>
      match lookup key entries with
      | Some x => Ok x
      | None => Err (KeyError key)
      end
  | _ => Err TypeError
  end.

(** [f"{instruction}"] for an argument that is a [str] or [None]. *)
Definition str_of (instruction : option string) : string :=
  match instruction with
  | Some s => s
  | None => "None"
  end.

(** ** The prompt of each task *)

Definition prompt_classify_user_prompt (instruction : option string) : string :=
  unlines
    [ blank
    ; "            Analyze the following user prompt: " ++ str_of instruction
    ; blank
    ; "            User prompt types:"
    ; "            - Type I (return True): User prompts with any specific descriptions"
    ; "            Examples: "
    ; "            * Color-based: " ++ dq ++ "green objects" ++ dq
    ; "            * Position-based: " ++ dq ++ "objects from the right" ++ dq
    ; "            * Property-based: " ++ dq ++ "all cups" ++ dq
    ; "            * Combination: " ++ dq ++ "the red cup on the left" ++ dq
    ; blank
    ; "            - Type II (return False): Abstract prompts without any object descriptions"
    ; "            Examples: " ++ dq ++ "clear the table" ++ dq ++ ", " ++ dq ++ "clean up" ++ dq ++ ", " ++ dq ++ "remove everything" ++ dq
    ; blank
    ; "            Please determine:"
    ; "            - Is this a Type I prompt? (True/False)"
    ; "            - Provide your reasoning"
    ; blank
    ; "            Return format:"
    ; "            True/False: your reasoning"
    ; blank
    ; "            Examples:"
    ; "            - " ++ dq ++ "grab the green cup" ++ dq ++ " -> True: Contains specific object (cup) and property (green)"
    ; "            - " ++ dq ++ "clear the table" ++ dq ++ " -> False: No specific object characteristics mentioned"
    ; "            "
    ].

Definition prompt_decompose_user_prompt (instruction : option string) : string :=
  unlines
    [ blank
    ; "            For user prompt: " ++ str_of instruction
    ; "            Process:"
    ; "            1. Analyze the user prompt and image together:"
    ; "            - Match user prompt descriptions with visible objects in the image"
    ; "            - If a description (e.g., " ++ dq ++ "green objects" ++ dq ++ ") matches multiple objects, include all matching objects"
    ; "            - Verify each mentioned object actually exists in the image"
    ; blank
    ; "            2. Based on the robot arm's position (right edge of the screen) and table layout"
    ; "            3. Determine the most efficient grasping sequence"
    ; "            4. Generate a reordered list of objects to grasp"
    ; "            "
    ; "            Requirements:"
    ; "            - Only include objects mentioned in the original user prompt"
    ; "            - Keep position information for each object"
    ; "            - Return as a list, ordered by grasping sequence"
    ; blank
    ; "            Expected output format:"
    ; "            [" ++ dq ++ "object with position 1" ++ dq ++ ", " ++ dq ++ "object with position 2" ++ dq ++ ", ...]"
    ; "            "
    ].

Definition prompt_generate_instruction : string :=
  unlines
    [ blank
    ; "            Analyze the current desktop layout and select the most suitable object to grasp, considering the following factors:"
    ; blank
    ; "            Grasping Strategy:"
    ; "            1. The robotic arm is positioned on the far right (outside the frame)"
    ; "            2. Grasping Priority Order:"
    ; "               - Prioritize objects on the right to avoid knocking over other objects during later operations"
    ; "               - Then consider objects in the middle"
    ; "               - Finally, consider objects on the left"
    ; "            3. Accessibility Analysis:"
    ; "               - Relative positions between objects"
    ; "               - Potential obstacles"
    ; "               - Whether the grasping path might interfere with other objects"
    ; blank
    ; "            Please provide your response in the following JSON format:"
    ; "            {"
    ; "                " ++ dq ++ "analysis" ++ dq ++ ": {"
    ; "                    " ++ dq ++ "priority_consideration" ++ dq ++ ": " ++ dq ++ "Explanation of why this object has priority" ++ dq ++ ","
    ; "                    " ++ dq ++ "accessibility" ++ dq ++ ": " ++ dq ++ "Analysis of object's accessibility" ++ dq ++ ","
    ; "                    " ++ dq ++ "risk_assessment" ++ dq ++ ": " ++ dq ++ "Potential risks in grasping this object" ++ dq
    ; "                },"
    ; "                " ++ dq ++ "target" ++ dq ++ ": " ++ dq ++ "A comprehensive description of the target object "
    ; "                (e.g., 'the blue cube on the far right of the desktop, next to the red cylinder')" ++ dq
    ; "            }"
    ; blank
    ; "            Ensure the output is in valid JSON format."
    ; "            Note: The 'target' field should ONLY contain the object's color, shape, and position in a natural, flowing sentence. Do not include any analysis or reasoning in this field."
    ; "            "
    ].

Definition prompt_mark_bounding_box (instruction : option string) : string :=
  unlines
    [ blank
    ; "            Analyze the image and identify the best matching object with the description: " ++ str_of instruction ++ "."
    ; "            Instructions for object analysis:"
    ; "            1. Select ONE object that best matches the description"
    ; "            2. For the selected object, provide:"
    ; "            - A concise label, object name (3-4 words max)"
    ; "            - A detailed description (position, color, shape, context)"
    ; "            - Accurate bbox coordinates"
    ; blank
    ; "            Required JSON format with an example:"
    ; "            ```json"
    ; "            {"
    ; "                " ++ dq ++ "bbox_2d" ++ dq ++ ": [x1, y1, x2, y2],"
    ; "                " ++ dq ++ "label" ++ dq ++ ": " ++ dq ++ "green cup" ++ dq ++ ",  # Keep this very brief (3-4 words)"
    ; "                " ++ dq ++ "description" ++ dq ++ ": " ++ dq ++ "A cylindrical green ceramic cup located on the right side of the wooden table, next to the laptop" ++ dq ++ "  # Detailed description"
    ; "            }"
    ; "            ```"
    ; blank
    ; "            Critical requirements:"
    ; "            - Return EXACTLY ONE object"
    ; "            - " ++ dq ++ "label" ++ dq ++ ": Must be brief (3-4 words) for quick reference"
    ; "            - " ++ dq ++ "description" ++ dq ++ ": Must be detailed and include spatial context"
    ; "            - Use single JSON object format, not an array"
    ; "            - Ensure bbox coordinates are within image boundaries"
    ; "            "
    ].

Definition prompt_check_grasp_success : string :=
  unlines
    [ blank
    ; "            Analyze the image and determine if the robotic arm has successfully grasped an object:"
    ; "            1. Observe the spatial relationship between the robotic hand and the object"
    ; "            2. Output format: explain your reasoning, then conclude with a boolean value (True=grasped, False=not grasped)"
    ; "            "
    ].

Definition prompt_check_instruction_complete (instruction : option string) : string :=
  unlines
    [ blank
    ; "            Please check whether " ++ str_of instruction ++ " exists on the desktop. If it does not exist, output True; otherwise, output False."
    ; "            "
    ].

Definition prompt_check_user_prompt_complete : string :=
  unlines
    [ blank
    ; "            Please analyze the table in the image:"
    ; blank
    ; "            Requirements:"
    ; "            - Only detect physical objects with noticeable height/thickness (3D objects)"
    ; "            - Exclude from consideration:"
    ; "            * Flat items (papers, tablecloths, mats)"
    ; "            * Light projections"
    ; "            * Shadows"
    ; "            * Surface patterns or textures"
    ; blank
    ; "            Return format:"
    ; "            - True: if the table is empty of 3D objects"
    ; "            - False: if there are any 3D objects, followed by their names"
    ; blank
    ; "            Example responses:"
    ; "            True  (for empty table)"
    ; "            False: cup, bottle, plate  (for table with objects)"
    ; "            "
    ].

(** The task names [request_task] knows, in the order of its branches. *)
Definition task_names : list string :=
  [ "classify_user_prompt"; "decompose_user_prompt"; "generate_instruction";
    "mark_bounding_box"; "check_grasp_success"; "check_instruction_complete";
    "check_user_prompt_complete" ].

Definition invalid_task_name (task_name : string) : exn :=
  ValueError [Lit "The task_name "; Fmt (PStr task_name); Lit " is not a valid task name."].

(** The first [if]/[elif] chain of [request_task]. *)
Definition build_prompt (task_name : string) (instruction : option string)
  : result string :=
  if task_name =? "classify_user_prompt" then
    Ok (prompt_classify_user_prompt instruction)
  else if task_name =? "decompose_user_prompt" then
    Ok (prompt_decompose_user_prompt instruction)
  else if task_name =? "generate_instruction" then
    Ok prompt_generate_instruction
  else if task_name =? "mark_bounding_box" then
    Ok (prompt_mark_bounding_box instruction)
  else if task_name =? "check_grasp_success" then
    Ok prompt_check_grasp_success
  else if task_name =? "check_instruction_complete" then
    Ok (prompt_check_instruction_complete instruction)
  else if task_name =? "check_user_prompt_complete" then
    Ok prompt_check_user_prompt_complete
  else
    Err (invalid_task_name task_name).

(** ** The conversation *)

(** One entry of a turn's [content]: [{"type": "text", "text": ...}] or
    [{"type": "image_url", "image_url": {"url": ...}}]. *)
Inductive content_part : Type :=
| Text (text : string)
| ImageUrl (url : string).

Record message : Type := Message {
  role : string;
  content : list content_part
}.

Definition system_text : string := "You are a helpful assistant.".

(** [messages], with the image appended to the user turn when there is a
    [frame_path]. *)
Definition build_messages (prompt : string) (frame_path : option string)
  : list message :=
  [ Message "system" [Text system_text];
    Message "user"
      (Text prompt ::
       match frame_path with
       | Some url => [ImageUrl url]
       | None => []
       end) ].

(** ** The completion service *)

(** The keyword arguments of [self.client.chat.completions.create]. *)
Record request : Type := Request {
  req_model : string;
  req_max_completion_tokens : Z;
  req_messages : list message
}.

(** The planner object.  [client] stands for the completion service: given
    the requests it has been sent so far and a new one, it fails or answers
    with [choices[0].message.content], which may be [None]. *)
Record DexGraspVLAPlanner : Type := Planner {
  client : list request -> request -> reply (option string);
  model : string
}.

(** Computations that talk to the service: the state is the list of the
    requests sent so far, oldest first. *)
Definition M (A : Type) : Type := list request -> result A * list request.

Definition lift {A : Type} (r : result A) : M A := fun sent => (r, sent).

Definition bind {A B : Type} (m : M A) (k : A -> M B) : M B :=
  fun sent =>
    match m sent with
    | (Ok a, sent') => k a sent'
    | (Err e, sent') => (Err e, sent')
    end.

Notation "x <- m ;; k" := (bind m (fun x => k))
  (at level 61, m at next level, right associativity).

Definition chat_completions_create (self : DexGraspVLAPlanner) (req : request)
  : M (option string) :=
  fun sent => (from ChatCompletions (client self sent req), sent ++ [req])%list.

(** [response.lower()] is the first use of the content: [None] has no such
    method. *)
Definition the_text (content : option string) : result string :=
  match content with
  | Some response => Ok response
  | None => Err AttributeError
  end.

(** ** Decoding the response *)

Definition wrong_format (response : string) : exn :=
  ValueError [Lit "The output text "; Fmt (PStr response); Lit " is in the wrong format."].

Definition not_a_valid_list (list_output : PyVal) : exn :=
  ValueError [Lit "The output text "; Fmt list_output; Lit " is not a valid list."].

Definition not_a_valid_string (generate_task : PyVal) : exn :=
  ValueError [Lit "The output text "; Fmt generate_task; Lit " is not a valid string."].

Definition no_valid_boolean (response : string) : exn :=
  ValueError
    [Lit "The output text "; Fmt (PStr response); Lit " does not contain a valid boolean value."].

(** ** The specification's vocabulary *)

Module Spec.

(** The letters, each capital beside its small letter. *)
Definition alphabet : list (ascii * ascii) :=
  combine (list_ascii_of_string "ABCDEFGHIJKLMNOPQRSTUVWXYZ")
          (list_ascii_of_string "abcdefghijklmnopqrstuvwxyz").

(** Two characters are the same letter when they are equal or are the
    capital and the small form of one letter of the alphabet. *)
Definition same_letter (a b : ascii) : bool :=
  Ascii.eqb a b ||
  existsb (fun p => (Ascii.eqb a (fst p) && Ascii.eqb b (snd p)) ||
                    (Ascii.eqb a (snd p) && Ascii.eqb b (fst p)))
          alphabet.

(** Two texts spell the same, the case of the letters apart. *)
Fixpoint same_word (a b : string) : bool :=
  match a, b with
  | EmptyString, EmptyString => true
  | String x a', String y b' => same_letter x y && same_word a' b'
  | _, _ => false
  end.

(** Case-insensitive search, said directly: some window of [hay] spells
    [needle] up to the case of its letters. *)

Fixpoint prefix_ci (needle hay : string) : bool :=
  match needle, hay with
  | EmptyString, _ => true
  | String _ _, EmptyString => false
  | String a needle', String b hay' => same_letter a b && prefix_ci needle' hay'
  end.

Fixpoint contains_ci (needle hay : string) : bool :=
  prefix_ci needle hay ||
  match hay with
  | EmptyString => false
  | String _ rest => contains_ci needle rest
  end.

(** A sequence of strings. *)
Definition strings_only (v : PyVal) : bool :=
  match v with
  | PList items => forallb is_str items
  | _ => false
  end.

(** Modelled from the spec: [planner.utils.extract_list] is missing from
    the sources.  The list-extraction primitive returns the parsed sequence
    of strings, or fails; it fails by raising or by handing back a value
    that is no list, which is what the test [type(list_output) == list] of
    [request_task] is there for.  So a list it returns is a list of
    strings. *)
Definition extract_list_contract (extract_list : string -> reply PyVal) : Prop :=
  forall text items,
    extract_list text = Returned (PList items) -> forallb is_str items = true.

(** Every boolean and every character, for checks by cases. *)
Definition forall_bool (f : bool -> bool) : bool := f true && f false.

Definition forall_ascii (f : ascii -> bool) : bool :=
  forall_bool (fun b0 => forall_bool (fun b1 => forall_bool (fun b2 =>
  forall_bool (fun b3 => forall_bool (fun b4 => forall_bool (fun b5 =>
  forall_bool (fun b6 => forall_bool (fun b7 =>
    f (Ascii b0 b1 b2 b3 b4 b5 b6 b7))))))))).

Definition is_number (v : PyVal) : bool :=
  match v with
  | PInt _ | PFloat _ => true
  | _ => false
  end.

(** The bounding-box record: four numeric coordinates (under [bbox_2d], the
    key the prompt asks for, or [bbox]), a [label] and a [description]. *)
Definition bbox_field (entries : list (string * PyVal)) : option PyVal :=
  match lookup "bbox_2d" entries with
  | Some v => Some v
  | None => lookup "bbox" entries
  end.

Definition is_bbox_record (v : PyVal) : bool :=
  match v with
  | PDict entries =>
      match bbox_field entries, lookup "label" entries, lookup "description" entries with
      | Some (PList [x1; y1; x2; y2]), Some (PStr _), Some (PStr _) =>
          is_number x1 && is_number y1 && is_number x2 && is_number y2
      | _, _, _ => false
      end
  | _ => false
  end.

(** The tasks whose prompt interpolates the instruction, the tasks whose
    prompt does not, and the tasks decoded by the true/false rule. *)
Definition instruction_tasks : list string :=
  [ "classify_user_prompt"; "decompose_user_prompt"; "mark_bounding_box";
    "check_instruction_complete" ].

Definition instruction_free_tasks : list string :=
  [ "generate_instruction"; "check_grasp_success"; "check_user_prompt_complete" ].

Definition boolean_tasks : list string :=
  [ "classify_user_prompt"; "check_grasp_success"; "check_instruction_complete";
    "check_user_prompt_complete" ].

(** The true-valued result of a boolean task. *)
Definition true_result (task_name : string) : PyVal :=
  if task_name =? "classify_user_prompt" then PStr "TypeI" else PBool true.

Definition false_result (task_name : string) : PyVal :=
  if task_name =? "classify_user_prompt" then PStr "TypeII" else PBool false.

Definition malformed_boolean (task_name response : string) : exn :=
  if task_name =? "classify_user_prompt" then wrong_format response
  else no_valid_boolean response.

(** The decision rule of the boolean tasks: [true] is looked for first,
    then [false]; [None] when the text has neither. *)
Definition boolean_rule (response : string) : option bool :=
  if contains_ci "true" response then Some true
  else if contains_ci "false" response then Some false
  else None.

(** The attachment of the user turn. *)
Definition attachment (frame_path : option string) : list content_part :=
  match frame_path with
  | Some url => [ImageUrl url]
  | None => []
  end.

End Spec.
Import Spec.

(** ** Sample collaborators *)

Module Sample.

(** A text utility known on a few texts only. *)
Fixpoint scripted {A : Type} (table : list (string * A)) (text : string) : reply A :=
  match table with
  | [] => Failed "unexpected text"
  | (t, a) :: rest => if String.eqb t text then Returned a else scripted rest text
  end.

Definition no_target_text : string := "{" ++ dq ++ "analysis" ++ dq ++ ": {}}".
Definition target_42_text : string := "{" ++ dq ++ "target" ++ dq ++ ": 42}".
Definition target_cup_text : string :=
  "{" ++ dq ++ "target" ++ dq ++ ": " ++ dq ++ "the red cup" ++ dq ++ "}".
Definition cups_text : string :=
  "[" ++ dq ++ "red cup on left" ++ dq ++ ", " ++ dq ++ "blue bowl on right" ++ dq ++ "]".

(** Each text below is a JSON value and nothing else: it is what the
    extraction finds. *)
Definition parse_json (text : string) : reply string := Returned text.

Definition json_repair_loads : string -> reply PyVal :=
  scripted
    [ (no_target_text, PDict [("analysis", PDict [])]);
      (target_42_text, PDict [("target", PInt 42)]);
      (target_cup_text, PDict [("target", PStr "the red cup")]);
      ("[]", PList []) ].

(** Modelled from the spec: [planner.utils.extract_list] is missing from
    the sources.  On the list of the two cups it returns the two strings in
    their order; on a text without a list it hands back [None], a value
    that is no list. *)
Definition extract_list : string -> reply PyVal :=
  scripted
    [ (cups_text, PList [PStr "red cup on left"; PStr "blue bowl on right"]);
      ("no list here", PNone) ].

(** A service that answers every request with the same text. *)
Definition planner (answer : string) : DexGraspVLAPlanner :=
  Planner (fun _ _ => Returned (Some answer)) "sample-model".

End Sample.

(** ** Construction *)

(** The client object that [OpenAI(...)] gives: what [models.list()] comes
    to (the ids of [.data], in order) and the chat-completion endpoint. *)
Record OpenAI : Type := Client {
  models_list : reply (list string);
  chat_completions : list request -> request -> reply (option string)
}.

(** What can stop [__init__]: the listing of the models fails, or it is
    empty and [data[0]] raises [IndexError]. *)
Inductive init_error : Type :=
| ModelsListFailed (what : string)
| IndexError.

Definition default_api_key : string := "EMPTY".
Definition default_base_url : string := "http://localhost:8000/v1".

(** [httpx.HTTPTransport(retries=1)]. *)
Definition transport_retries : nat := 1.

Section Construction.

(** [OpenAI(api_key=..., base_url=..., http_client=...)], the transport
    being given by its number of retries. *)
Variable open_client : string -> string -> nat -> OpenAI.

(** [DexGraspVLAPlanner.__init__].  The conditional expression looks at
    [model_name] first and evaluates one side only. *)
Definition init (api_key base_url : string) (model_name : option string)
  : init_error + DexGraspVLAPlanner :=
  let client := open_client api_key base_url transport_retries in
  match model_name with
  | None =>
      match models_list client with
      | Returned (first :: _) => inr (Planner (chat_completions client) first)
      | Returned [] => inl IndexError
      | Failed what => inl (ModelsListFailed what)
      end
  | Some name => inr (Planner (chat_completions client) name)
  end.

End Construction.

(** Sample services. *)
Module SampleService.

(** A server with the given models that answers every request with the
    same text. *)
Definition serving (ids : list string) (answer : string) (_ _ : string) (_ : nat)
  : OpenAI :=
  Client (Returned ids) (fun _ _ => Returned (Some answer)).

(** A server that cannot be reached. *)
Definition unreachable (_ _ : string) (_ : nat) : OpenAI :=
  Client (Failed "connection refused") (fun _ _ => Failed "connection refused").

(** A planner whose service is down, and one whose service answers with no
    content. *)
Definition planner_down : DexGraspVLAPlanner :=
  Planner (fun _ _ => Failed "connection refused") "sample-model".

Definition planner_mute : DexGraspVLAPlanner :=
  Planner (fun _ _ => Returned None) "sample-model".

(** Text utilities that always fail. *)
Definition failing {A B : Type} (_ : A) : reply B := Failed "not available".

End SampleService.

(** ** Decoding, and the whole call *)

Section Decoding.

(** [planner.utils.parse_json], [planner.utils.extract_list] and
    [json_repair.loads]. *)
Variable parse_json : string -> reply string.
Variable extract_list : string -> reply PyVal.
Variable json_repair_loads : string -> reply PyVal.

(** The second [if]/[elif] chain of [request_task], from
    [response_lower = response.lower()] on. *)
Definition decode (task_name response : string) : result PyVal :=
  let response_lower := lower response in
  if task_name =? "classify_user_prompt" then
    if contains "true" response_lower then Ok (PStr "TypeI")
    else if contains "false" response_lower then Ok (PStr "TypeII")
    else Err (wrong_format response)
  else if task_name =? "decompose_user_prompt" then
    list_output <-- from ExtractList (extract_list response) ;;
    if is_list list_output then Ok list_output
    else Err (not_a_valid_list list_output)
  else if task_name =? "generate_instruction" then
    generate_task_str <-- from ParseJson (parse_json response) ;;
    generate_task_json <-- from JsonRepairLoads (json_repair_loads generate_task_str) ;;
    generate_task <-- getitem generate_task_json "target" ;;
    if is_str generate_task then Ok generate_task
    else Err (not_a_valid_string generate_task)
  else if task_name =? "mark_bounding_box" then
    bbox_str <-- from ParseJson (parse_json response) ;;
    bbox_json <-- from JsonRepairLoads (json_repair_loads bbox_str) ;;
    Ok bbox_json
  else
    if contains "true" response_lower then Ok (PBool true)
    else if contains "false" response_lower then Ok (PBool false)
    else Err (no_valid_boolean response).

Definition request_task (self : DexGraspVLAPlanner) (task_name : string)
    (frame_path instruction : option string) (max_token : Z) : M PyVal :=
  prompt <- lift (build_prompt task_name instruction) ;;
  let messages := build_messages prompt frame_path in
  content <- chat_completions_create self (Request (model self) max_token messages) ;;
  response <- lift (the_text content) ;;
  lift (decode task_name response).

(** What [request_task] makes of the service's answer. *)
Definition after_reply (task_name : string) (r : reply (option string))
  : result PyVal :=
  content <-- from ChatCompletions r ;;
  response <-- the_text content ;;
  decode task_name response.


(** * Properties *)

(** ** Text search *)

Lemma append_assoc (a b c : string) : (a ++ b) ++ c = a ++ (b ++ c).
Proof.
  induction a as [|x a IH]; simpl; [reflexivity | now rewrite IH].
Qed.

Lemma prefix_cons (a b : ascii) (n h : string) :
  prefix (String a n) (String b h) = Ascii.eqb a b && prefix n h.
Proof.
  simpl. destruct (ascii_dec a b) as [->|Hne].
  - now rewrite Ascii.eqb_refl.
  - apply Ascii.eqb_neq in Hne. now rewrite Hne.
Qed.

Lemma prefix_iff (n h : string) :
  prefix n h = true <-> exists post, h = n ++ post.
Proof.
  revert h. induction n as [|a n IH]; intros h.
  - split; [intros _; now exists h | intros _; destruct h; reflexivity].
  - destruct h as [|b h].
    + split; [discriminate | intros [post H]; discriminate].
    + rewrite prefix_cons, andb_true_iff, Ascii.eqb_eq, IH. split.
      * intros [-> [post ->]]. now exists post.
      * intros [post H]. simpl in H. injection H as -> ->. split; eauto.
Qed.

(** [contains] finds exactly the occurrences: [hay] is [needle] with
    something before and something after. *)
Lemma contains_iff (n h : string) :
  contains n h = true <-> exists pre post, h = pre ++ n ++ post.
Proof.
  induction h as [|b h IH].
  - change (contains n EmptyString) with (prefix n EmptyString || false).
    rewrite orb_false_r, prefix_iff. split.
    + intros [post H]. now exists EmptyString, post.
    + intros [pre [post H]]. destruct pre; [now exists post | discriminate].
  - change (contains n (String b h)) with (prefix n (String b h) || contains n h).
    rewrite orb_true_iff, prefix_iff, IH. split.
    + intros [[post H] | [pre [post H]]].
      * now exists EmptyString, post.
      * exists (String b pre), post. simpl. now rewrite H.
    + intros [pre [post H]]. destruct pre as [|c pre].
      * left. now exists post.
      * right. simpl in H. injection H as _ ->. now exists pre, post.
Qed.

Lemma lower_ascii_idem (c : ascii) : lower_ascii (lower_ascii c) = lower_ascii c.
Proof.
  destruct c as [[] [] [] [] [] [] [] []]; reflexivity.
Qed.

Lemma lower_idem (s : string) : lower (lower s) = lower s.
Proof.
  induction s as [|c s IH]; simpl; [reflexivity|].
  now rewrite lower_ascii_idem, IH.
Qed.

Lemma lower_app (s t : string) : lower (s ++ t) = lower s ++ lower t.
Proof.
  induction s as [|c s IH]; simpl; [reflexivity | now rewrite IH].
Qed.

Lemma forall_bool_spec (f : bool -> bool) :
  forall_bool f = true -> forall b, f b = true.
Proof.
  unfold forall_bool. intros H b. apply andb_true_iff in H. now destruct b.
Qed.

Lemma forall_ascii_spec (f : ascii -> bool) :
  forall_ascii f = true -> forall c, f c = true.
Proof.
  intros H [b0 b1 b2 b3 b4 b5 b6 b7]. unfold forall_ascii in H.
  pose proof (forall_bool_spec _ H b0) as H0. cbv beta in H0.
  pose proof (forall_bool_spec _ H0 b1) as H1. cbv beta in H1.
  pose proof (forall_bool_spec _ H1 b2) as H2. cbv beta in H2.
  pose proof (forall_bool_spec _ H2 b3) as H3. cbv beta in H3.
  pose proof (forall_bool_spec _ H3 b4) as H4. cbv beta in H4.
  pose proof (forall_bool_spec _ H4 b5) as H5. cbv beta in H5.
  pose proof (forall_bool_spec _ H5 b6) as H6. cbv beta in H6.
  exact (forall_bool_spec _ H6 b7).
Qed.

(** Two characters are the same letter exactly when [str.lower] takes them
    to the same character: checked on every pair of characters. *)
Lemma same_letter_lower (a b : ascii) :
  same_letter a b = Ascii.eqb (lower_ascii a) (lower_ascii b).
Proof.
  apply eqb_prop.
  revert b. apply forall_ascii_spec with
    (f := fun b => Bool.eqb (same_letter a b) (Ascii.eqb (lower_ascii a) (lower_ascii b))).
  revert a. apply forall_ascii_spec with
    (f := fun a => forall_ascii (fun b =>
            Bool.eqb (same_letter a b) (Ascii.eqb (lower_ascii a) (lower_ascii b)))).
  vm_compute. reflexivity.
Qed.

(** Two texts spell the same, case apart, exactly when they are the same
    text once lowered. *)
Lemma same_word_lower (a b : string) :
  same_word a b = true <-> lower a = lower b.
Proof.
  revert b. induction a as [|x a IH]; intros [|y b]; simpl;
    try (split; [reflexivity | reflexivity]);
    try (split; discriminate).
  rewrite andb_true_iff, same_letter_lower, Ascii.eqb_eq, IH. split.
  - now intros [-> ->].
  - intros H. now injection H.
Qed.

Lemma prefix_lower_ci (n h : string) :
  lower n = n -> prefix n (lower h) = prefix_ci n h.
Proof.
  revert h. induction n as [|a n IH]; intros h Hn.
  - destruct h; reflexivity.
  - destruct h as [|b h]; [reflexivity|].
    simpl in Hn. injection Hn as Ha Hn'.
    change (lower (String b h)) with (String (lower_ascii b) (lower h)).
    rewrite prefix_cons, (IH h Hn'). simpl. rewrite same_letter_lower. now rewrite Ha.
Qed.

(** Searching the lower-cased text for a lower-case word is the
    case-insensitive search for it. *)
Lemma contains_lower_ci (n h : string) :
  lower n = n -> contains n (lower h) = contains_ci n h.
Proof.
  intros Hn. induction h as [|b h IH].
  - simpl. f_equal. destruct n; reflexivity.
  - change (lower (String b h)) with (String (lower_ascii b) (lower h)).
    change (contains n (String (lower_ascii b) (lower h)))
      with (prefix n (String (lower_ascii b) (lower h)) || contains n (lower h)).
    change (contains_ci n (String b h))
      with (prefix_ci n (String b h) || contains_ci n h).
    rewrite IH. f_equal.
    exact (prefix_lower_ci n (String b h) Hn).
Qed.

(** An occurrence in any mix of cases is found. *)
Lemma contains_ci_occurrence (n pre mid post : string) :
  lower n = n -> lower mid = n -> contains_ci n (pre ++ mid ++ post) = true.
Proof.
  intros Hn Hmid. rewrite <- (contains_lower_ci _ _ Hn), !lower_app, Hmid.
  apply contains_iff. now exists (lower pre), (lower post).
Qed.

(** ** Building the prompt *)

Lemma unlines_blank (l : string) (ls : list string) :
  unlines (blank :: l :: ls) = String (ascii_of_nat 10) (unlines (l :: ls)).
Proof. reflexivity. Qed.

Lemma task_names_cases (t : string) :
  In t task_names ->
  t = "classify_user_prompt" \/ t = "decompose_user_prompt" \/
  t = "generate_instruction" \/ t = "mark_bounding_box" \/
  t = "check_grasp_success" \/ t = "check_instruction_complete" \/
  t = "check_user_prompt_complete".
Proof.
  unfold task_names. simpl. intros H.
  repeat (destruct H as [H|H]; [symmetry in H; tauto|]). contradiction.
Qed.

Ltac each_task H :=
  apply task_names_cases in H;
  repeat (destruct H as [H|H]); subst.

(** Every known task has a prompt, and no prompt is empty: each starts with
    the line feed that follows the opening quotes. *)
Lemma build_prompt_known (t : string) (i : option string) :
  In t task_names ->
  exists prompt, build_prompt t i = Ok prompt /\ prompt <> EmptyString.
Proof.
  intros H. each_task H.
  - exists (prompt_classify_user_prompt i). split; [reflexivity|].
    unfold prompt_classify_user_prompt. rewrite unlines_blank. discriminate.
  - exists (prompt_decompose_user_prompt i). split; [reflexivity|].
    unfold prompt_decompose_user_prompt. rewrite unlines_blank. discriminate.
  - exists prompt_generate_instruction. split; [reflexivity|].
    unfold prompt_generate_instruction. rewrite unlines_blank. discriminate.
  - exists (prompt_mark_bounding_box i). split; [reflexivity|].
    unfold prompt_mark_bounding_box. rewrite unlines_blank. discriminate.
  - exists prompt_check_grasp_success. split; [reflexivity|].
    unfold prompt_check_grasp_success. rewrite unlines_blank. discriminate.
  - exists (prompt_check_instruction_complete i). split; [reflexivity|].
    unfold prompt_check_instruction_complete. rewrite unlines_blank. discriminate.
  - exists prompt_check_user_prompt_complete. split; [reflexivity|].
    unfold prompt_check_user_prompt_complete. rewrite unlines_blank. discriminate.
Qed.

(** Any other name falls through to the final [else]. *)
Lemma build_prompt_unknown (t : string) (i : option string) :
  ~ In t task_names -> build_prompt t i = Err (invalid_task_name t).
Proof.
  intros H. unfold build_prompt.
  repeat match goal with
  | |- context [String.eqb t ?name] =>
      destruct (String.eqb_spec t name) as [->|_];
      [exfalso; apply H; unfold task_names; simpl; tauto|]
  end.
  reflexivity.
Qed.

(** ** The call as a whole *)

(** With a prompt in hand, exactly one request goes out, and the outcome is
    read off the answer to it. *)
Lemma request_task_known self t f i m sent prompt :
  build_prompt t i = Ok prompt ->
  let req := Request (model self) m (build_messages prompt f) in
  request_task self t f i m sent =
    (after_reply t (client self sent req), (sent ++ [req])%list).
Proof.
  intros Hb req. unfold request_task, bind, lift, chat_completions_create.
  rewrite Hb. fold req. unfold after_reply.
  destruct (client self sent req) as [[response|]|what]; reflexivity.
Qed.

(** Without one, nothing goes out. *)
Lemma request_task_no_prompt self t f i m sent e :
  build_prompt t i = Err e ->
  request_task self t f i m sent = (Err e, sent).
Proof.
  intros Hb. unfold request_task, bind, lift. now rewrite Hb.
Qed.

(** No failure of decoding is the failure of the unknown task name. *)
Lemma decode_not_invalid_task_name t response t' :
  decode t response <> Err (invalid_task_name t').
Proof.
  unfold decode, rbind, from, getitem, invalid_task_name,
    wrong_format, not_a_valid_list, not_a_valid_string, no_valid_boolean.
  repeat match goal with
  | |- context [if ?b then _ else _] => destruct b
  | |- context [match ?r with Returned _ => _ | Failed _ => _ end] => destruct r
  | |- context [match ?v with PDict _ => _ | _ => _ end] => destruct v
  | |- context [match ?o with Some _ => _ | None => _ end] => destruct o
  end; discriminate.
Qed.

Lemma after_reply_not_invalid_task_name t r t' :
  after_reply t r <> Err (invalid_task_name t').
Proof.
  unfold after_reply. destruct r as [[response|]|what]; simpl;
    try discriminate. apply decode_not_invalid_task_name.
Qed.

(** C6.  A call fails with the unknown-task-name error exactly when the
    task name is none of the seven: every other name gets that error, and
    a known name never does, whatever the service and the text utilities
    do. *)
Theorem unknown_task_name_iff self t f i m sent :
  fst (request_task self t f i m sent) = Err (invalid_task_name t)
  <-> ~ In t task_names.
Proof.
  split.
  - intros Hfail Hin.
    destruct (build_prompt_known t i Hin) as [prompt [Hb _]].
    rewrite (request_task_known self t f i m sent prompt Hb) in Hfail.
    exact (after_reply_not_invalid_task_name _ _ _ Hfail).
  - intros Hout.
    now rewrite (request_task_no_prompt self t f i m sent _ (build_prompt_unknown t i Hout)).
Qed.

(** C7.  For each of the seven task names the conversation that is sent
    has two turns: a system turn with the text "You are a helpful
    assistant." and nothing else, then a user turn that opens with the
    prompt, which is not empty, followed by the image when there is one. *)
Theorem conversation_of_known_task self t f i m sent :
  In t task_names ->
  exists prompt,
    prompt <> EmptyString /\
    build_prompt t i = Ok prompt /\
    snd (request_task self t f i m sent) =
      (sent ++
       [Request (model self) m
          [Message "system" [Text "You are a helpful assistant."];
           Message "user" (Text prompt :: attachment f)]])%list.
Proof.
  intros Hin. destruct (build_prompt_known t i Hin) as [prompt [Hb Hne]].
  exists prompt. repeat split; [exact Hne | exact Hb |].
  now rewrite (request_task_known self t f i m sent prompt Hb).
Qed.

(** C9.  For generate_instruction, check_grasp_success and
    check_user_prompt_complete the instruction plays no part: two calls
    that differ in it only build the same prompt and the same
    conversation, and come out the same. *)
Theorem instruction_ignored self t f i1 i2 m sent :
  In t instruction_free_tasks ->
  build_prompt t i1 = build_prompt t i2 /\
  request_task self t f i1 m sent = request_task self t f i2 m sent.
Proof.
  unfold instruction_free_tasks. simpl.
  intros [<-|[<-|[<-|[]]]]; split; reflexivity.
Qed.

(** C10.  On a task name outside the seven the call stops at the final
    [else] of the prompt chain: the error comes back, the list of requests
    sent is what it was, and the service has not been asked anything. *)
Theorem unknown_task_name_sends_nothing self t f i m sent :
  ~ In t task_names ->
  request_task self t f i m sent = (Err (invalid_task_name t), sent).
Proof.
  intros Hout. apply request_task_no_prompt. now apply build_prompt_unknown.
Qed.

(** ** Decoding, task by task *)

Lemma decode_classify_user_prompt response :
  decode "classify_user_prompt" response =
    if contains "true" (lower response) then Ok (PStr "TypeI")
    else if contains "false" (lower response) then Ok (PStr "TypeII")
    else Err (wrong_format response).
Proof. reflexivity. Qed.

Lemma decode_decompose_user_prompt response :
  decode "decompose_user_prompt" response =
    (list_output <-- from ExtractList (extract_list response) ;;
     if is_list list_output then Ok list_output
     else Err (not_a_valid_list list_output)).
Proof. reflexivity. Qed.

Lemma decode_generate_instruction response :
  decode "generate_instruction" response =
    (generate_task_str <-- from ParseJson (parse_json response) ;;
     generate_task_json <-- from JsonRepairLoads (json_repair_loads generate_task_str) ;;
     generate_task <-- getitem generate_task_json "target" ;;
     if is_str generate_task then Ok generate_task
     else Err (not_a_valid_string generate_task)).
Proof. reflexivity. Qed.

Lemma decode_mark_bounding_box response :
  decode "mark_bounding_box" response =
    (bbox_str <-- from ParseJson (parse_json response) ;;
     from JsonRepairLoads (json_repair_loads bbox_str)).
Proof.
  unfold decode. simpl String.eqb. cbv iota.
  destruct (parse_json response) as [bbox_str|]; simpl; [|reflexivity].
  destruct (json_repair_loads bbox_str); reflexivity.
Qed.

(** The four boolean tasks: one rule, two ways of spelling the answer. *)
Lemma decode_boolean_task t response :
  In t boolean_tasks ->
  decode t response =
    if contains "true" (lower response) then Ok (true_result t)
    else if contains "false" (lower response) then Ok (false_result t)
    else Err (malformed_boolean t response).
Proof.
  unfold boolean_tasks. simpl. intros [<-|[<-|[<-|[<-|[]]]]]; reflexivity.
Qed.

Lemma lower_true : lower "true" = "true".
Proof. reflexivity. Qed.

Lemma lower_false : lower "false" = "false".
Proof. reflexivity. Qed.

(** The same rule in the specification's words. *)
Lemma decode_boolean_rule t response :
  In t boolean_tasks ->
  decode t response =
    match boolean_rule response with
    | Some true => Ok (true_result t)
    | Some false => Ok (false_result t)
    | None => Err (malformed_boolean t response)
    end.
Proof.
  intros Hin. rewrite (decode_boolean_task t response Hin). unfold boolean_rule.
  rewrite (contains_lower_ci "true" response lower_true).
  rewrite (contains_lower_ci "false" response lower_false).
  destruct (contains_ci "true" response); [reflexivity|].
  destruct (contains_ci "false" response); reflexivity.
Qed.

(** What the branch does with the value it is handed: a value that is no
    list is refused with the not-a-valid-list error, and a list is
    returned as it is, its elements unexamined. *)
Lemma decompose_by_list_test response list_output :
  extract_list response = Returned list_output ->
  decode "decompose_user_prompt" response =
    if is_list list_output then Ok list_output
    else Err (not_a_valid_list list_output).
Proof.
  intros Hx. now rewrite decode_decompose_user_prompt, Hx.
Qed.

(** C1.  With a list-extraction primitive that keeps its contract (a list
    it returns is a list of strings), decoding decompose_user_prompt
    applies it to the response and fails with the not-a-valid-list error
    whenever the value extracted is not a sequence of strings; when it is a
    sequence of strings, that sequence is returned as it is, in its
    order. *)
Theorem decompose_user_prompt_decoding response list_output :
  extract_list_contract extract_list ->
  extract_list response = Returned list_output ->
  (strings_only list_output = false ->
     decode "decompose_user_prompt" response = Err (not_a_valid_list list_output)) /\
  (strings_only list_output = true ->
     decode "decompose_user_prompt" response = Ok list_output).
Proof.
  intros Hcontract Hx. rewrite (decompose_by_list_test response list_output Hx).
  split; intros Hs.
  - destruct list_output as [| | | | |items|entries]; try reflexivity.
    simpl in Hs. rewrite (Hcontract response items Hx) in Hs. discriminate.
  - destruct list_output; simpl in Hs; try discriminate. reflexivity.
Qed.

(** The generate_instruction branch, once the text is parsed: the value
    under [target] is returned when it is a string and refused with the
    not-a-valid-string error when it is anything else; a dict without the
    key makes the subscript raise [KeyError], and a value that is not a
    dict makes it raise [TypeError]. *)
Lemma generate_instruction_parsed response generate_task_str generate_task_json :
  parse_json response = Returned generate_task_str ->
  json_repair_loads generate_task_str = Returned generate_task_json ->
  decode "generate_instruction" response =
    match generate_task_json with
    | PDict entries =>
        match lookup "target" entries with
        | Some (PStr s) => Ok (PStr s)
        | Some v => Err (not_a_valid_string v)
        | None => Err (KeyError "target")
        end
    | _ => Err TypeError
    end.
Proof.
  intros Hp Hl. rewrite decode_generate_instruction, Hp. simpl. rewrite Hl. simpl.
  destruct generate_task_json as [| | | | |items|entries]; try reflexivity.
  simpl. destruct (lookup "target" entries) as [[]|]; reflexivity.
Qed.

(** A "false" that stands before the "true", in any mix of cases, does not
    change the answer. *)
Lemma false_before_true t before no between yes after :
  In t boolean_tasks ->
  lower no = "false" -> lower yes = "true" ->
  decode t (before ++ no ++ between ++ yes ++ after) = Ok (true_result t).
Proof.
  intros Hin _ Hyes. rewrite (decode_boolean_task t _ Hin).
  replace (contains "true" (lower (before ++ no ++ between ++ yes ++ after)))
    with true; [reflexivity|].
  symmetry. apply contains_iff.
  exists (lower (before ++ no ++ between)), (lower after).
  now rewrite !lower_app, Hyes, !append_assoc.
Qed.

(** C3.  In each of the four boolean tasks, a response whose lower-cased
    text has both "true" and "false" in it decodes to the true-valued
    result, "TypeI" for classify_user_prompt and [True] for the others,
    wherever the two words stand. *)
Theorem true_wins_over_false t response :
  In t boolean_tasks ->
  contains "true" (lower response) = true ->
  contains "false" (lower response) = true ->
  decode t response = Ok (true_result t).
Proof.
  intros Hin Htrue _. now rewrite (decode_boolean_task t response Hin), Htrue.
Qed.

(** C4.  Decoding classify_user_prompt looks for "true", then for "false",
    without regard to case, and answers "TypeI", "TypeII" or the
    wrong-format error; check_grasp_success, check_instruction_complete
    and check_user_prompt_complete follow the same rule and answer [True],
    [False] or the no-valid-boolean error. *)
Theorem boolean_decoding response :
  decode "classify_user_prompt" response =
    match boolean_rule response with
    | Some true => Ok (PStr "TypeI")
    | Some false => Ok (PStr "TypeII")
    | None => Err (wrong_format response)
    end /\
  let plain :=
    match boolean_rule response with
    | Some b => Ok (PBool b)
    | None => Err (no_valid_boolean response)
    end in
  decode "check_grasp_success" response = plain /\
  decode "check_instruction_complete" response = plain /\
  decode "check_user_prompt_complete" response = plain.
Proof.
  repeat split;
    (rewrite decode_boolean_rule; [|unfold boolean_tasks; simpl; tauto]);
    destruct (boolean_rule response) as [[]|]; reflexivity.
Qed.

(** C5, as the code has it.  A value that decoding returns is "TypeI" or
    "TypeII" for classify_user_prompt, a list for decompose_user_prompt, a
    string for generate_instruction, a boolean for the three check tasks;
    for mark_bounding_box it is whatever [json_repair.loads] made of the
    text [parse_json] picked, passed on unexamined. *)
Theorem decoded_shape t response v :
  decode t response = Ok v ->
  (t = "classify_user_prompt" -> v = PStr "TypeI" \/ v = PStr "TypeII") /\
  (t = "decompose_user_prompt" -> is_list v = true) /\
  (t = "generate_instruction" -> is_str v = true) /\
  (t = "mark_bounding_box" ->
     exists bbox_str,
       parse_json response = Returned bbox_str /\
       json_repair_loads bbox_str = Returned v) /\
  (In t ["check_grasp_success"; "check_instruction_complete";
         "check_user_prompt_complete"] -> exists b, v = PBool b).
Proof.
  intros H. repeat split.
  - intros ->. rewrite decode_classify_user_prompt in H.
    destruct (contains "true" _); [injection H as <-; now left|].
    destruct (contains "false" _); [injection H as <-; now right|discriminate].
  - intros ->. rewrite decode_decompose_user_prompt in H.
    destruct (extract_list response) as [list_output|]; simpl in H; [|discriminate].
    destruct (is_list list_output) eqn:E; [|discriminate]. now injection H as <-.
  - intros ->. rewrite decode_generate_instruction in H.
    destruct (parse_json response) as [js|]; simpl in H; [|discriminate].
    destruct (json_repair_loads js) as [j|]; simpl in H; [|discriminate].
    destruct (getitem j "target") as [g|]; simpl in H; [|discriminate].
    destruct (is_str g) eqn:E; [|discriminate]. now injection H as <-.
  - intros ->. rewrite decode_mark_bounding_box in H.
    destruct (parse_json response) as [bbox_str|]; simpl in H; [|discriminate].
    exists bbox_str. split; [reflexivity|].
    destruct (json_repair_loads bbox_str); simpl in H; [|discriminate].
    now injection H as <-.
  - intros Hin.
    assert (Hb : In t boolean_tasks)
      by (unfold boolean_tasks; simpl in *; tauto).
    rewrite (decode_boolean_task t response Hb) in H.
    assert (Ht : true_result t = PBool true /\ false_result t = PBool false)
      by (simpl in Hin; destruct Hin as [<-|[<-|[<-|[]]]]; split; reflexivity).
    destruct Ht as [Ht Hf]. rewrite Ht, Hf in H.
    destruct (contains "true" _); [injection H as <-; now exists true|].
    destruct (contains "false" _); [injection H as <-; now exists false|discriminate].
Qed.

(** ** Failures on the way, and what the call leaves behind *)

(** X1.  When the service fails on the request of a known task, the call
    fails with that very failure; the request counts as sent, and the
    response is never decoded. *)
Theorem service_failure_passes_through self t f i m sent prompt what :
  build_prompt t i = Ok prompt ->
  client self sent (Request (model self) m (build_messages prompt f)) = Failed what ->
  request_task self t f i m sent =
    (Err (Propagated ChatCompletions what),
     (sent ++ [Request (model self) m (build_messages prompt f)])%list).
Proof.
  intros Hb Hc. rewrite (request_task_known self t f i m sent prompt Hb).
  cbv zeta. now rewrite Hc.
Qed.

(** X2.  When the service answers with no content, the call fails with
    [AttributeError] at [response.lower()], whatever the task. *)
Theorem no_content_is_attribute_error self t f i m sent prompt :
  build_prompt t i = Ok prompt ->
  client self sent (Request (model self) m (build_messages prompt f)) = Returned None ->
  fst (request_task self t f i m sent) = Err AttributeError.
Proof.
  intros Hb Hc. rewrite (request_task_known self t f i m sent prompt Hb).
  cbv zeta. now rewrite Hc.
Qed.

(** X3.  A call only ever appends to the requests sent, and at most one
    request; it appends none exactly when the task name is unknown. *)
Theorem requests_are_appended self t f i m sent :
  exists new,
    snd (request_task self t f i m sent) = (sent ++ new)%list /\
    (length new <= 1)%nat /\
    (new = [] <-> ~ In t task_names).
Proof.
  destruct (in_dec string_dec t task_names) as [Hin|Hout].
  - destruct (build_prompt_known t i Hin) as [prompt [Hb _]].
    exists [Request (model self) m (build_messages prompt f)].
    rewrite (request_task_known self t f i m sent prompt Hb).
    repeat split; [simpl; lia | discriminate | contradiction].
  - exists []. rewrite (request_task_no_prompt self t f i m sent _ (build_prompt_unknown t i Hout)).
    simpl. rewrite app_nil_r. repeat split; [lia | trivial].
Qed.

(** ** More on the boolean tasks *)

Lemma true_result_not_false t : In t boolean_tasks -> true_result t <> false_result t.
Proof.
  unfold boolean_tasks. simpl. intros [<-|[<-|[<-|[<-|[]]]]]; discriminate.
Qed.

Lemma decode_true_iff t response :
  In t boolean_tasks ->
  decode t response = Ok (true_result t) <-> contains "true" (lower response) = true.
Proof.
  intros Hin. rewrite (decode_boolean_task t response Hin). split.
  - destruct (contains "true" _); [reflexivity|].
    destruct (contains "false" _); [|discriminate].
    intros H. injection H as H. symmetry in H. now apply true_result_not_false in H.
  - now intros ->.
Qed.

(** X4.  The answer of a boolean task does not depend on the case of the
    letters A to Z in the response: two responses that are the same text
    but for capitals against small letters of the alphabet get the same
    answer. *)
Theorem boolean_answer_ignores_case t r1 r2 v :
  In t boolean_tasks ->
  same_word r1 r2 = true ->
  decode t r1 = Ok v -> decode t r2 = Ok v.
Proof.
  intros Hin Hl. apply same_word_lower in Hl.
  rewrite !(decode_boolean_task t _ Hin), Hl.
  destruct (contains "true" _); [trivial|].
  destruct (contains "false" _); [trivial|discriminate].
Qed.

(** X5.  A true verdict stands whatever text is put before and after the
    response. *)
Theorem true_survives_context t response before after :
  In t boolean_tasks ->
  decode t response = Ok (true_result t) ->
  decode t (before ++ response ++ after) = Ok (true_result t).
Proof.
  intros Hin H. apply (decode_true_iff _ _ Hin) in H. apply (decode_true_iff _ _ Hin).
  apply contains_iff in H. destruct H as [pre [post H]].
  apply contains_iff. exists (lower before ++ pre), (post ++ lower after).
  now rewrite !lower_app, H, !append_assoc.
Qed.

Lemma lower_split h a b :
  lower h = a ++ b -> exists h1 h2, h = h1 ++ h2 /\ lower h1 = a /\ lower h2 = b.
Proof.
  revert h. induction a as [|c a IH]; intros h H.
  - now exists EmptyString, h.
  - destruct h as [|x h]; [discriminate|]. simpl in H. injection H as Hx H.
    destruct (IH h H) as [h1 [h2 [-> [H1 H2]]]].
    exists (String x h1), h2. simpl. now rewrite Hx, H1.
Qed.

(** The search finds a word exactly when some stretch of the text spells
    it, the case of the letters apart. *)
Lemma contains_lower_iff n h :
  contains n (lower h) = true <->
  exists before word after, h = before ++ word ++ after /\ lower word = n.
Proof.
  rewrite contains_iff. split.
  - intros [pre [post H]].
    destruct (lower_split _ _ _ H) as [h1 [h' [-> [_ H']]]].
    destruct (lower_split _ _ _ H') as [h2 [h3 [-> [H2 _]]]].
    now exists h1, h2, h3.
  - intros [before [word [after [-> H]]]].
    exists (lower before), (lower after). now rewrite !lower_app, H.
Qed.

(** The search finds a word exactly when some stretch of the text spells
    it, capitals and small letters taken for the same, letter by letter of
    the alphabet. *)
Lemma contains_lower_spelt n h :
  lower n = n ->
  contains n (lower h) = true <->
  exists before word after, h = before ++ word ++ after /\ same_word word n = true.
Proof.
  intros Hn. rewrite contains_lower_iff. split.
  - intros [b [w [a [-> Hw]]]]. exists b, w, a. split; [reflexivity|].
    apply same_word_lower. now rewrite Hw.
  - intros [b [w [a [-> Hw]]]]. exists b, w, a. split; [reflexivity|].
    apply same_word_lower in Hw. now rewrite Hw.
Qed.

(** X6.  A boolean task fails exactly when no stretch of the response
    spells "true" or "false", in capitals, in small letters or in any mix
    of the two. *)
Theorem boolean_failure_iff t response :
  In t boolean_tasks ->
  (exists e, decode t response = Err e) <->
  (forall before word after,
     response = before ++ word ++ after ->
     same_word word "true" = false /\ same_word word "false" = false).
Proof.
  intros Hin. rewrite (decode_boolean_task t response Hin). split.
  - intros [e He] before word after Hr.
    destruct (contains "true" (lower response)) eqn:Et; [discriminate|].
    destruct (contains "false" (lower response)) eqn:Ef; [discriminate|].
    split.
    + destruct (same_word word "true") eqn:Hw; [|reflexivity].
      assert (contains "true" (lower response) = true)
        by (apply (contains_lower_spelt _ _ lower_true); now exists before, word, after).
      congruence.
    + destruct (same_word word "false") eqn:Hw; [|reflexivity].
      assert (contains "false" (lower response) = true)
        by (apply (contains_lower_spelt _ _ lower_false); now exists before, word, after).
      congruence.
  - intros Hno.
    destruct (contains "true" (lower response)) eqn:Et.
    + apply (contains_lower_spelt _ _ lower_true) in Et.
      destruct Et as [b [w [a [Hr Hw]]]].
      destruct (Hno b w a Hr) as [Hw' _]. congruence.
    + destruct (contains "false" (lower response)) eqn:Ef.
      * apply (contains_lower_spelt _ _ lower_false) in Ef.
        destruct Ef as [b [w [a [Hr Hw]]]].
        destruct (Hno b w a Hr) as [_ Hw']. congruence.
      * eauto.
Qed.

(** ** More on the JSON tasks *)

(** X7.  generate_instruction succeeds exactly when the text picked parses
    to a dict whose [target] is a string, and then returns that string. *)
Theorem generate_instruction_succeeds_iff response v :
  decode "generate_instruction" response = Ok v <->
  exists text entries s,
    parse_json response = Returned text /\
    json_repair_loads text = Returned (PDict entries) /\
    lookup "target" entries = Some (PStr s) /\
    v = PStr s.
Proof.
  split.
  - rewrite decode_generate_instruction.
    destruct (parse_json response) as [text|] eqn:Hp; simpl; [|discriminate].
    destruct (json_repair_loads text) as [parsed|] eqn:Hl; simpl; [|discriminate].
    destruct parsed as [| | | | |items|entries]; simpl; try discriminate.
    destruct (lookup "target" entries) as [[| | | |s| |]|] eqn:Ht; simpl; try discriminate.
    intros H. injection H as <-. now exists text, entries, s.
  - intros [text [entries [s [Hp [Hl [Ht ->]]]]]].
    rewrite (generate_instruction_parsed response text _ Hp Hl). now rewrite Ht.
Qed.

(** X8.  Once the text is parsed, generate_instruction fails with
    [TypeError] exactly when the parsed value is not a dict. *)
Theorem generate_instruction_type_error response text parsed :
  parse_json response = Returned text ->
  json_repair_loads text = Returned parsed ->
  decode "generate_instruction" response = Err TypeError <->
  forall entries, parsed <> PDict entries.
Proof.
  intros Hp Hl. rewrite (generate_instruction_parsed response text parsed Hp Hl).
  destruct parsed as [| | | | |items|entries]; try (split; [discriminate|reflexivity]).
  split.
  - destruct (lookup "target" entries) as [[]|]; discriminate.
  - intros H. now destruct (H entries).
Qed.

(** X9.  mark_bounding_box raises nothing of its own: it fails exactly
    when one of the two text utilities fails, with that failure. *)
Theorem mark_bounding_box_fails_iff response e :
  decode "mark_bounding_box" response = Err e <->
  (exists what, parse_json response = Failed what /\ e = Propagated ParseJson what) \/
  (exists text what,
     parse_json response = Returned text /\
     json_repair_loads text = Failed what /\
     e = Propagated JsonRepairLoads what).
Proof.
  rewrite decode_mark_bounding_box.
  destruct (parse_json response) as [text|what] eqn:Hp; simpl.
  - destruct (json_repair_loads text) as [v|what] eqn:Hl; simpl; split.
    + discriminate.
    + intros [[what [H _]]|[text' [what [H [H' _]]]]]; [discriminate|].
      injection H as <-. congruence.
    + intros H. injection H as <-. right. now exists text, what.
    + intros [[w [H _]]|[text' [w [H [H' ->]]]]]; [discriminate|].
      injection H as <-. congruence.
  - split.
    + intros H. injection H as <-. left. now exists what.
    + intros [[w [H ->]]|[text [w [H _]]]]; [congruence|discriminate].
Qed.

End Decoding.

(** ** The instruction in the prompt *)

(** Splits a prompt around its placeholder, given the text that stands
    before it. *)
Ltac split_prompt before prompt :=
  let n := eval vm_compute in (String.length before) in
  let whole := eval vm_compute in (prompt (Some EmptyString)) in
  let after := eval vm_compute in (substring n (String.length whole) whole) in
  exists before, after;
  split;
  [ let i := fresh "i" in
    intros i; change (Ok (prompt i) = Ok (before ++ str_of i ++ after));
    apply f_equal; unfold prompt, unlines, blank, nl;
    generalize (str_of i); intros; simpl; rewrite ?append_assoc; reflexivity
  | vm_compute; reflexivity ].

(** C8.  In the four tasks whose prompt takes the instruction, the prompt
    is a fixed text, the instruction, and a fixed text again; called with
    [None] for the instruction, the call does not fail and the prompt has
    the word "None" where the instruction goes. *)
Theorem none_is_interpolated t :
  In t instruction_tasks ->
  exists before after,
    (forall i, build_prompt t i = Ok (before ++ str_of i ++ after)) /\
    build_prompt t None = Ok (before ++ "None" ++ after).
Proof.
  unfold instruction_tasks. simpl. intros [<-|[<-|[<-|[<-|[]]]]].
  - split_prompt (nl ++ "            Analyze the following user prompt: ")
      prompt_classify_user_prompt.
  - split_prompt (nl ++ "            For user prompt: ") prompt_decompose_user_prompt.
  - split_prompt
      (nl ++ "            Analyze the image and identify the best matching object with the description: ")
      prompt_mark_bounding_box.
  - split_prompt (nl ++ "            Please check whether ") prompt_check_instruction_complete.
Qed.

(** * The protocol at concrete inputs *)

Notation sample_decode :=
  (decode Sample.parse_json Sample.extract_list Sample.json_repair_loads).
Notation sample_request_task :=
  (request_task Sample.parse_json Sample.extract_list Sample.json_repair_loads).

Lemma grasp_is_no_task_name : ~ In "grasp" task_names.
Proof.
  unfold task_names. simpl. intros H.
  repeat (destruct H as [H|H]; [discriminate|]). exact H.
Qed.

(** ** Decoding *)

Example classify_true : sample_decode "classify_user_prompt" "True: contains a color" = Ok (PStr "TypeI").
Proof. reflexivity. Qed.

Example classify_false : sample_decode "classify_user_prompt" "False: no specifics" = Ok (PStr "TypeII").
Proof. reflexivity. Qed.

Example classify_unclear :
  sample_decode "classify_user_prompt" "unclear" = Err (wrong_format "unclear").
Proof. reflexivity. Qed.

Example grasp_false_then_true :
  sample_decode "check_grasp_success" "False at first sight, but the hand holds it: True"
  = Ok (PBool true).
Proof. reflexivity. Qed.

(** "true" inside another word counts. *)
Example complete_untrue :
  sample_decode "check_instruction_complete" "That is untrue, so: False" = Ok (PBool true).
Proof. reflexivity. Qed.

Example generate_target_string :
  sample_decode "generate_instruction" Sample.target_cup_text = Ok (PStr "the red cup").
Proof. reflexivity. Qed.

Example generate_target_number :
  sample_decode "generate_instruction" Sample.target_42_text
  = Err (not_a_valid_string (PInt 42)).
Proof. reflexivity. Qed.

Lemma sample_extract_list_contract : extract_list_contract Sample.extract_list.
Proof.
  intros text items. unfold Sample.extract_list.
  change (Sample.scripted _ text) with
    (if Sample.cups_text =? text
     then Returned (PList [PStr "red cup on left"; PStr "blue bowl on right"])
     else if "no list here" =? text then Returned PNone
     else @Failed PyVal "unexpected text").
  destruct (Sample.cups_text =? text).
  - intros H. injection H as <-. reflexivity.
  - destruct ("no list here" =? text); discriminate.
Qed.

Example decompose_cups_in_order :
  sample_decode "decompose_user_prompt" Sample.cups_text
  = Ok (PList [PStr "red cup on left"; PStr "blue bowl on right"]).
Proof. reflexivity. Qed.

Lemma decompose_user_prompt_decoding_witness :
  extract_list_contract Sample.extract_list /\
  Sample.extract_list "no list here" = Returned PNone /\
  strings_only PNone = false /\
  sample_decode "decompose_user_prompt" "no list here" = Err (not_a_valid_list PNone).
Proof.
  split; [exact sample_extract_list_contract|].
  split; [reflexivity|]. split; [reflexivity|].
  exact (proj1 (decompose_user_prompt_decoding Sample.parse_json Sample.extract_list
                  Sample.json_repair_loads "no list here" PNone
                  sample_extract_list_contract eq_refl) eq_refl).
Defined.

(** C2.  The response [{"analysis": {}}] parses to a dict that has no
    [target]: the subscript raises [KeyError], which is not the
    not-a-valid-string [ValueError] that a [target] of the wrong type
    gets. *)
Theorem generate_instruction_without_target :
  Sample.parse_json Sample.no_target_text = Returned Sample.no_target_text /\
  Sample.json_repair_loads Sample.no_target_text = Returned (PDict [("analysis", PDict [])]) /\
  sample_decode "generate_instruction" Sample.no_target_text = Err (KeyError "target") /\
  sample_decode "generate_instruction" Sample.target_42_text
    = Err (not_a_valid_string (PInt 42)).
Proof.
  repeat split; reflexivity.
Qed.

Lemma boolean_decoding_witness :
  boolean_rule "It is TRUE" = Some true /\
  boolean_rule "fAlSe." = Some false /\
  boolean_rule "unclear" = None /\
  sample_decode "classify_user_prompt" "It is TRUE" = Ok (PStr "TypeI") /\
  sample_decode "check_instruction_complete" "fAlSe." = Ok (PBool false) /\
  sample_decode "check_user_prompt_complete" "unclear" = Err (no_valid_boolean "unclear").
Proof.
  split; [reflexivity|]. split; [reflexivity|]. split; [reflexivity|].
  split; [|split].
  - exact (proj1 (boolean_decoding Sample.parse_json Sample.extract_list
                    Sample.json_repair_loads "It is TRUE")).
  - exact (proj1 (proj2 (proj2 (boolean_decoding Sample.parse_json Sample.extract_list
                                  Sample.json_repair_loads "fAlSe.")))).
  - exact (proj2 (proj2 (proj2 (boolean_decoding Sample.parse_json Sample.extract_list
                                  Sample.json_repair_loads "unclear")))).
Defined.

Lemma true_wins_over_false_witness :
  In "check_grasp_success" boolean_tasks /\
  contains "true" (lower "False? No: True") = true /\
  contains "false" (lower "False? No: True") = true /\
  sample_decode "check_grasp_success" "False? No: True" = Ok (PBool true).
Proof.
  assert (Hin : In "check_grasp_success" boolean_tasks)
    by (unfold boolean_tasks; simpl; tauto).
  split; [exact Hin|]. split; [reflexivity|]. split; [reflexivity|].
  exact (true_wins_over_false Sample.parse_json Sample.extract_list
           Sample.json_repair_loads "check_grasp_success" "False? No: True"
           Hin eq_refl eq_refl).
Defined.

(** The response "[]" parses to an empty list, and that is what
    mark_bounding_box returns: no record, no coordinates, no label. *)
Lemma mark_bounding_box_returns_a_list :
  sample_decode "mark_bounding_box" "[]" = Ok (PList []) /\
  is_bbox_record (PList []) = false.
Proof.
  split; reflexivity.
Qed.

Lemma decoded_shape_witness :
  sample_decode "generate_instruction" Sample.target_cup_text = Ok (PStr "the red cup") /\
  is_str (PStr "the red cup") = true.
Proof.
  split; [reflexivity|].
  destruct (decoded_shape Sample.parse_json Sample.extract_list Sample.json_repair_loads
              "generate_instruction" Sample.target_cup_text (PStr "the red cup") eq_refl)
    as [_ [_ [H _]]].
  exact (H eq_refl).
Defined.

(** ** Prompts and requests *)

Example check_instruction_complete_none :
  build_prompt "check_instruction_complete" None =
    Ok (unlines
          [ blank;
            "            Please check whether None exists on the desktop. If it does not exist, output True; otherwise, output False.";
            "            " ]).
Proof. reflexivity. Qed.

Lemma conversation_of_known_task_witness :
  In "check_grasp_success" task_names /\
  exists prompt,
    prompt <> EmptyString /\
    build_prompt "check_grasp_success" None = Ok prompt /\
    snd (sample_request_task (Sample.planner "True") "check_grasp_success"
           (Some "frame.png") None 218%Z []) =
      [Request "sample-model" 218%Z
         [Message "system" [Text "You are a helpful assistant."];
          Message "user" [Text prompt; ImageUrl "frame.png"]]].
Proof.
  assert (Hin : In "check_grasp_success" task_names)
    by (unfold task_names; simpl; tauto).
  split; [exact Hin|].
  exact (conversation_of_known_task Sample.parse_json Sample.extract_list
           Sample.json_repair_loads (Sample.planner "True") "check_grasp_success"
           (Some "frame.png") None 218%Z [] Hin).
Defined.

Lemma none_is_interpolated_witness :
  In "check_instruction_complete" instruction_tasks /\
  exists before after,
    (forall i, build_prompt "check_instruction_complete" i
               = Ok (before ++ str_of i ++ after)) /\
    build_prompt "check_instruction_complete" None = Ok (before ++ "None" ++ after).
Proof.
  assert (Hin : In "check_instruction_complete" instruction_tasks)
    by (unfold instruction_tasks; simpl; tauto).
  split; [exact Hin|].
  exact (none_is_interpolated "check_instruction_complete" Hin).
Defined.

Lemma instruction_ignored_witness :
  In "generate_instruction" instruction_free_tasks /\
  build_prompt "generate_instruction" (Some "the red cup")
    = build_prompt "generate_instruction" None /\
  sample_request_task (Sample.planner Sample.target_cup_text) "generate_instruction"
      None (Some "the red cup") 218%Z []
    = sample_request_task (Sample.planner Sample.target_cup_text) "generate_instruction"
        None None 218%Z [].
Proof.
  assert (Hin : In "generate_instruction" instruction_free_tasks)
    by (unfold instruction_free_tasks; simpl; tauto).
  split; [exact Hin|].
  exact (instruction_ignored Sample.parse_json Sample.extract_list
           Sample.json_repair_loads (Sample.planner Sample.target_cup_text)
           "generate_instruction" None (Some "the red cup") None 218%Z [] Hin).
Defined.

Lemma unknown_task_name_sends_nothing_witness :
  ~ In "grasp" task_names /\
  sample_request_task (Sample.planner "True") "grasp" (Some "frame.png")
      (Some "the red cup") 218%Z []
    = (Err (invalid_task_name "grasp"), []).
Proof.
  split; [exact grasp_is_no_task_name|].
  exact (unknown_task_name_sends_nothing Sample.parse_json Sample.extract_list
           Sample.json_repair_loads (Sample.planner "True") "grasp"
           (Some "frame.png") (Some "the red cup") 218%Z [] grasp_is_no_task_name).
Defined.

(** A known task sends its one request and decodes the answer. *)
Example request_check_grasp_success :
  sample_request_task (Sample.planner "The hand is closed around the cup. True")
      "check_grasp_success" None None 218%Z []
    = (Ok (PBool true),
       [Request "sample-model" 218%Z
          (build_messages prompt_check_grasp_success None)]).
Proof. reflexivity. Qed.

(** * Beyond one call *)

(** ** Construction *)

(** X10.  Built with a model name, the planner exists whatever the listing
    of the models would have said, and every request it sends for a known
    task carries that name. *)
Theorem init_with_model_name
    (open_client : string -> string -> nat -> OpenAI)
    (parse_json : string -> reply string)
    (extract_list json_repair_loads : string -> reply PyVal)
    api_key base_url name t f i m sent :
  In t task_names ->
  exists self prompt,
    init open_client api_key base_url (Some name) = inr self /\
    build_prompt t i = Ok prompt /\
    snd (request_task parse_json extract_list json_repair_loads self t f i m sent)
      = (sent ++ [Request name m (build_messages prompt f)])%list.
Proof.
  intros Hin.
  destruct (build_prompt_known parse_json extract_list json_repair_loads t i Hin)
    as [prompt [Hb _]].
  eexists. exists prompt. split; [reflexivity|]. split; [exact Hb|].
  now rewrite (request_task_known _ _ _ _ t f i m sent prompt Hb).
Qed.

(** X11.  Built without a model name, the planner takes the first model the
    service lists.  Construction fails with [IndexError] exactly when the
    list is empty, and with the failure of the listing exactly when the
    listing fails. *)
Theorem init_without_model_name
    (open_client : string -> string -> nat -> OpenAI) api_key base_url :
  let client := open_client api_key base_url transport_retries in
  (forall self,
     init open_client api_key base_url None = inr self <->
     exists first others,
       models_list client = Returned (first :: others) /\
       self = Planner (chat_completions client) first) /\
  (init open_client api_key base_url None = inl IndexError <->
     models_list client = Returned []) /\
  (forall what,
     init open_client api_key base_url None = inl (ModelsListFailed what) <->
     models_list client = Failed what).
Proof.
  intros client. unfold init. fold client.
  generalize (models_list client) as listing. intros listing.
  destruct listing as [[|first others]|what'];
    repeat split; intros;
    repeat match goal with
    | H : exists _, _ |- _ => destruct H
    | H : _ /\ _ |- _ => destruct H
    end; subst; try discriminate; try congruence.
  match goal with H : inr _ = inr _ |- _ => injection H as <- end.
  now exists first, others.
Qed.

(** ** The text utilities, task by task *)

(** X12.  The boolean tasks never consult the text utilities: the whole call
    comes out the same whichever utilities are plugged in. *)
Theorem boolean_tasks_need_no_text_utility
    (parse_json parse_json' : string -> reply string)
    (extract_list extract_list' json_repair_loads json_repair_loads'
       : string -> reply PyVal)
    self t f i m sent :
  In t boolean_tasks ->
  request_task parse_json extract_list json_repair_loads self t f i m sent =
  request_task parse_json' extract_list' json_repair_loads' self t f i m sent.
Proof.
  intros Hin.
  assert (Hk : In t task_names)
    by (unfold boolean_tasks, task_names in *; simpl in *; tauto).
  destruct (build_prompt_known parse_json extract_list json_repair_loads t i Hk)
    as [prompt [Hb _]].
  rewrite !(request_task_known _ _ _ self t f i m sent prompt Hb).
  cbv zeta. f_equal. unfold after_reply.
  destruct (client self sent _) as [[response|]|what]; try reflexivity.
  simpl. now rewrite !(decode_boolean_task _ _ _ t response Hin).
Qed.

(** The task decompose_user_prompt consults [extract_list] only, and
    generate_instruction and mark_bounding_box never consult it. *)
Lemma utilities_by_task
    (parse_json parse_json' : string -> reply string)
    (extract_list extract_list' json_repair_loads json_repair_loads'
       : string -> reply PyVal)
    response :
  decode parse_json extract_list json_repair_loads "decompose_user_prompt" response
    = decode parse_json' extract_list json_repair_loads' "decompose_user_prompt" response /\
  decode parse_json extract_list json_repair_loads "generate_instruction" response
    = decode parse_json extract_list' json_repair_loads "generate_instruction" response /\
  decode parse_json extract_list json_repair_loads "mark_bounding_box" response
    = decode parse_json extract_list' json_repair_loads "mark_bounding_box" response.
Proof.
  repeat split; reflexivity.
Qed.

(** ** The prompt table *)

(** Only the seven names have a prompt. *)
Lemma build_prompt_ok_cases t i prompt :
  build_prompt t i = Ok prompt ->
  t = "classify_user_prompt" \/ t = "decompose_user_prompt" \/
  t = "generate_instruction" \/ t = "mark_bounding_box" \/
  t = "check_grasp_success" \/ t = "check_instruction_complete" \/
  t = "check_user_prompt_complete".
Proof.
  unfold build_prompt.
  repeat match goal with
  | |- context [String.eqb t ?name] =>
      destruct (String.eqb_spec t name) as [->|_]; [intros _; tauto|]
  end.
  discriminate.
Qed.

Ltac each_prompt H :=
  apply build_prompt_ok_cases in H;
  repeat (destruct H as [H|H]); subst.

(** Two prompts that differ at position [n] are not the same prompt. *)
Ltac differ_at n H :=
  let D := fresh "D" in
  pose proof (f_equal (fun r => match r with Ok p => String.get n p | Err _ => None end) H) as D;
  vm_compute in D; discriminate D.

Ltac differ H :=
  exfalso; first [differ_at 13 H | differ_at 20 H | differ_at 25 H | differ_at 35 H].

(** X13.  The prompt tells the task: no two task names get the same prompt,
    whatever the instructions. *)
Theorem prompt_tells_task t1 t2 i1 i2 prompt :
  build_prompt t1 i1 = Ok prompt ->
  build_prompt t2 i2 = Ok prompt ->
  t1 = t2.
Proof.
  intros H1 H2.
  pose proof H1 as K1. pose proof H2 as K2.
  rewrite <- H2 in H1. clear H2.
  each_prompt K1; each_prompt K2; try reflexivity; differ H1.
Qed.

Lemma length_append (a b : string) :
  String.length (a ++ b) = (String.length a + String.length b)%nat.
Proof.
  induction a as [|c a IH]; simpl; [reflexivity | now rewrite IH].
Qed.

Lemma append_inv_head (a s1 s2 : string) : a ++ s1 = a ++ s2 -> s1 = s2.
Proof.
  induction a as [|c a IH]; simpl; intros H; [exact H|].
  injection H as H. now apply IH.
Qed.

Lemma append_inv_tail (s1 s2 a : string) : s1 ++ a = s2 ++ a -> s1 = s2.
Proof.
  revert s2. induction s1 as [|c s1 IH]; intros [|d s2] H.
  - reflexivity.
  - apply (f_equal String.length) in H. simpl in H. rewrite length_append in H. lia.
  - apply (f_equal String.length) in H. simpl in H. rewrite length_append in H. lia.
  - simpl in H. injection H as -> H. now rewrite (IH s2 H).
Qed.

(** Shows a prompt to be a fixed text, the instruction, and a fixed text,
    given the text that stands before the instruction. *)
Ltac around before prompt :=
  let n := eval vm_compute in (String.length before) in
  let whole := eval vm_compute in (prompt (Some EmptyString)) in
  let after := eval vm_compute in (substring n (String.length whole) whole) in
  let i := fresh "i" in
  exists before, after; intros i;
  change (Ok (prompt i) = Ok (before ++ str_of i ++ after));
  apply f_equal; unfold prompt, unlines, blank, nl;
  generalize (str_of i); intros; simpl; rewrite ?append_assoc; reflexivity.

Lemma prompt_around_instruction t :
  In t instruction_tasks ->
  exists before after, forall i, build_prompt t i = Ok (before ++ str_of i ++ after).
Proof.
  unfold instruction_tasks. simpl. intros [<-|[<-|[<-|[<-|[]]]]].
  - around (nl ++ "            Analyze the following user prompt: ")
      prompt_classify_user_prompt.
  - around (nl ++ "            For user prompt: ") prompt_decompose_user_prompt.
  - around
      (nl ++ "            Analyze the image and identify the best matching object with the description: ")
      prompt_mark_bounding_box.
  - around (nl ++ "            Please check whether ") prompt_check_instruction_complete.
Qed.

(** X14.  In the four tasks whose prompt takes the instruction, the prompt
    carries the instruction text whole: two instruction texts that give the
    same prompt are the same text. *)
Theorem instruction_read_off_prompt t s1 s2 :
  In t instruction_tasks ->
  build_prompt t (Some s1) = build_prompt t (Some s2) ->
  s1 = s2.
Proof.
  intros Hin H. destruct (prompt_around_instruction t Hin) as [before [after Hp]].
  rewrite !Hp in H. injection H as H. simpl in H.
  apply append_inv_head in H. now apply append_inv_tail in H.
Qed.

(** * Beyond one call, at concrete inputs *)

Lemma check_grasp_success_known : In "check_grasp_success" task_names.
Proof. unfold task_names. simpl. tauto. Qed.

Lemma check_grasp_success_boolean : In "check_grasp_success" boolean_tasks.
Proof. unfold boolean_tasks. simpl. tauto. Qed.

Lemma classify_takes_instruction : In "classify_user_prompt" instruction_tasks.
Proof. unfold instruction_tasks. simpl. tauto. Qed.

(** The model listing fails, and the planner is built all the same. *)
Lemma init_with_model_name_witness :
  In "check_grasp_success" task_names /\
  models_list (SampleService.unreachable "EMPTY" default_base_url 1)
    = Failed "connection refused" /\
  exists self prompt,
    init SampleService.unreachable "EMPTY" default_base_url (Some "qwen") = inr self /\
    build_prompt "check_grasp_success" None = Ok prompt /\
    snd (sample_request_task self "check_grasp_success" None None 218%Z [])
      = [Request "qwen" 218%Z (build_messages prompt None)].
Proof.
  split; [exact check_grasp_success_known|]. split; [reflexivity|].
  exact (init_with_model_name SampleService.unreachable Sample.parse_json
           Sample.extract_list Sample.json_repair_loads "EMPTY" default_base_url
           "qwen" "check_grasp_success" None None 218%Z []
           check_grasp_success_known).
Defined.

Example init_takes_first_model :
  init (SampleService.serving ["qwen-72b"; "qwen-7b"] "True") default_api_key
       default_base_url None
  = inr (Planner (fun _ _ => Returned (Some "True")) "qwen-72b").
Proof. reflexivity. Qed.

Example init_no_model :
  init (SampleService.serving [] "True") default_api_key default_base_url None
  = inl IndexError.
Proof. reflexivity. Qed.

Lemma service_failure_passes_through_witness :
  build_prompt "check_grasp_success" None = Ok prompt_check_grasp_success /\
  sample_request_task SampleService.planner_down "check_grasp_success"
      (Some "frame.png") None 218%Z []
    = (Err (Propagated ChatCompletions "connection refused"),
       [Request "sample-model" 218%Z
          (build_messages prompt_check_grasp_success (Some "frame.png"))]).
Proof.
  split; [reflexivity|].
  exact (service_failure_passes_through Sample.parse_json Sample.extract_list
           Sample.json_repair_loads SampleService.planner_down
           "check_grasp_success" (Some "frame.png") None 218%Z []
           prompt_check_grasp_success "connection refused" eq_refl eq_refl).
Defined.

Lemma no_content_is_attribute_error_witness :
  build_prompt "generate_instruction" None = Ok prompt_generate_instruction /\
  fst (sample_request_task SampleService.planner_mute "generate_instruction"
         None None 218%Z [])
    = Err AttributeError.
Proof.
  split; [reflexivity|].
  exact (no_content_is_attribute_error Sample.parse_json Sample.extract_list
           Sample.json_repair_loads SampleService.planner_mute
           "generate_instruction" None None 218%Z []
           prompt_generate_instruction eq_refl eq_refl).
Defined.

Lemma boolean_answer_ignores_case_witness :
  In "check_grasp_success" boolean_tasks /\
  same_word "It is FALSE." "it is False." = true /\
  sample_decode "check_grasp_success" "It is FALSE." = Ok (PBool false) /\
  sample_decode "check_grasp_success" "it is False." = Ok (PBool false).
Proof.
  split; [exact check_grasp_success_boolean|]. split; [reflexivity|].
  split; [reflexivity|].
  exact (boolean_answer_ignores_case Sample.parse_json Sample.extract_list
           Sample.json_repair_loads "check_grasp_success" "It is FALSE."
           "it is False." (PBool false) check_grasp_success_boolean eq_refl eq_refl).
Defined.

Lemma true_survives_context_witness :
  In "check_grasp_success" boolean_tasks /\
  sample_decode "check_grasp_success" "True" = Ok (PBool true) /\
  sample_decode "check_grasp_success" ("Not false: " ++ "True" ++ ".") = Ok (PBool true).
Proof.
  split; [exact check_grasp_success_boolean|]. split; [reflexivity|].
  exact (true_survives_context Sample.parse_json Sample.extract_list
           Sample.json_repair_loads "check_grasp_success" "True" "Not false: " "."
           check_grasp_success_boolean eq_refl).
Defined.

(** A false verdict does not stand in the same way. *)
Example false_does_not_survive_context :
  sample_decode "check_grasp_success" "False" = Ok (PBool false) /\
  sample_decode "check_grasp_success" ("False" ++ ", it is true that it slipped")
    = Ok (PBool true).
Proof. split; reflexivity. Qed.

(** "tRuE" is a stretch that spells "true": the call cannot fail. *)
Lemma boolean_failure_iff_witness :
  In "check_grasp_success" boolean_tasks /\
  same_word "tRuE" "true" = true /\
  ~ (exists e, sample_decode "check_grasp_success" "It is tRuE." = Err e).
Proof.
  split; [exact check_grasp_success_boolean|]. split; [reflexivity|].
  intros Hfail.
  destruct (proj1 (boolean_failure_iff Sample.parse_json Sample.extract_list
                     Sample.json_repair_loads "check_grasp_success" "It is tRuE."
                     check_grasp_success_boolean) Hfail "It is " "tRuE" "." eq_refl)
    as [Hw _].
  discriminate Hw.
Defined.

Example unclear_fails :
  sample_decode "check_grasp_success" "unclear" = Err (no_valid_boolean "unclear").
Proof. reflexivity. Qed.

Lemma generate_instruction_type_error_witness :
  Sample.parse_json "[]" = Returned "[]" /\
  Sample.json_repair_loads "[]" = Returned (PList []) /\
  sample_decode "generate_instruction" "[]" = Err TypeError.
Proof.
  split; [reflexivity|]. split; [reflexivity|].
  apply (generate_instruction_type_error Sample.parse_json Sample.extract_list
           Sample.json_repair_loads "[]" "[]" (PList []) eq_refl eq_refl).
  discriminate.
Defined.

Lemma boolean_tasks_need_no_text_utility_witness :
  In "check_grasp_success" boolean_tasks /\
  sample_request_task (Sample.planner "True") "check_grasp_success" None None 218%Z []
  = request_task SampleService.failing SampleService.failing SampleService.failing
      (Sample.planner "True") "check_grasp_success" None None 218%Z [].
Proof.
  split; [exact check_grasp_success_boolean|].
  exact (boolean_tasks_need_no_text_utility Sample.parse_json SampleService.failing
           Sample.extract_list SampleService.failing
           Sample.json_repair_loads SampleService.failing
           (Sample.planner "True") "check_grasp_success" None None 218%Z []
           check_grasp_success_boolean).
Defined.

Lemma prompt_tells_task_witness :
  build_prompt "check_grasp_success" (Some "the red cup") = Ok prompt_check_grasp_success /\
  build_prompt "check_grasp_success" None = Ok prompt_check_grasp_success /\
  "check_grasp_success" = "check_grasp_success".
Proof.
  split; [reflexivity|]. split; [reflexivity|].
  exact (prompt_tells_task "check_grasp_success" "check_grasp_success"
           (Some "the red cup") None prompt_check_grasp_success eq_refl eq_refl).
Defined.

Lemma instruction_read_off_prompt_witness :
  In "classify_user_prompt" instruction_tasks /\
  build_prompt "classify_user_prompt" (Some "the red cup")
    = build_prompt "classify_user_prompt" (Some "the red cup") /\
  "the red cup" = "the red cup".
Proof.
  split; [exact classify_takes_instruction|]. split; [reflexivity|].
  exact (instruction_read_off_prompt "classify_user_prompt" "the red cup" "the red cup"
           classify_takes_instruction eq_refl).
Defined.
